(** * devsantara/head: the head builder and its adapters

A shallow embedding of the TypeScript sources
([src/index.ts], [src/builder.ts], [src/types.ts], [src/utils.ts] and
the two adapters under [src/adapters/]) together with the properties
the specification states about them.

JavaScript objects used as attribute bags are finite maps from
property names to values ([gmap string value]); arrays are lists; a
class instance is a record of its fields and a method is a state
transformer over that record. *)

From stdpp Require Import base option list strings pretty gmap fin_maps.

Local Open Scope string_scope.
Local Open Scope list_scope.

(** ** JavaScript values held by attribute objects *)

(** The values an attribute can carry: [undefined], [null], booleans,
    integral numbers, strings, arrays and plain objects. *)
#[warnings="-register-all"]
Inductive value : Type :=
  | VUndefined
  | VNull
  | VBool (b : bool)
  | VNum (n : Z)
  | VStr (s : string)
  | VArr (items : list value)
  | VObj (fields : gmap string value).

(** The string that the string conversion of the language yields for [v]
    when the conversion completes: an array is the comma-joined
    conversion of its items, where [undefined] and [null] items print as
    nothing; a plain object prints through [Object.prototype.toString].
    A number prints in decimal, which is what the language does for the
    safe integers (see [safe_integers]). *)
Fixpoint ToString (v : value) : string :=
  match v with
  | VUndefined => "undefined"
  | VNull => "null"
  | VBool true => "true"
  | VBool false => "false"
  | VNum n => pretty n
  | VStr s => s
  | VArr items =>
      String.concat ","
        (List.map (fun item =>
                     match item with
                     | VUndefined | VNull => ""
                     | _ => ToString item
                     end) items)
  | VObj _ => "[object Object]"
  end.

(** What a conversion can throw. *)
Inductive exception : Type := TypeError.

(** The outcome of a call: a returned value, or an exception thrown. *)
Inductive completion (A : Type) : Type :=
  | Normal (a : A)
  | Throw (e : exception).
Arguments Normal {A} _.
Arguments Throw {A} _.

(** The items of an array converted from left to right, as [join] does:
    [undefined] and [null] items give the empty string, and the first
    item whose conversion throws ends the whole. *)
Definition convert_items (convert : value → completion string)
  : list value → completion (list string) :=
  fix go (l : list value) : completion (list string) :=
    match l with
    | [] => Normal []
    | item :: l' =>
        match
          match item with
          | VUndefined | VNull => Normal ""
          | _ => convert item
          end
        with
        | Throw e => Throw e
        | Normal s =>
            match go l' with
            | Throw e => Throw e
            | Normal ss => Normal (s :: ss)
            end
        end
    end.

(** The call [String(v)].  For an object the conversion asks for its
    [toString]: without an own property of that name the inherited
    [Object.prototype.toString] answers; an own property hides it, and
    since no value of this model is callable, neither the own property
    nor the inherited [valueOf] (which returns the object itself) gives
    a primitive, and the conversion throws a [TypeError].  An array is
    converted by [Array.prototype.toString], that is [join]. *)
Fixpoint js_String (v : value) : completion string :=
  match v with
  | VUndefined => Normal "undefined"
  | VNull => Normal "null"
  | VBool true => Normal "true"
  | VBool false => Normal "false"
  | VNum n => Normal (pretty n)
  | VStr s => Normal s
  | VArr items =>
      match convert_items js_String items with
      | Throw e => Throw e
      | Normal ss => Normal (String.concat "," ss)
      end
  | VObj fields =>
      match fields !! "toString" with
      | Some _ => Throw TypeError
      | None => Normal "[object Object]"
      end
  end.




(** ** types.ts *)

(** [keyof HeadAttributeTypeMap]: the closed set of element kinds. *)
Inductive ElementType : Type := Meta | Link | Script | Style.

Global Instance ElementType_eq_dec : EqDecision ElementType.
Proof. solve_decision. Defined.

(** The string each kind is at run time. *)
Definition type_name (t : ElementType) : string :=
  match t with
  | Meta => "meta"
  | Link => "link"
  | Script => "script"
  | Style => "style"
  end.

(** [HeadAttributeTypeMap[T]]: at run time every attribute object is a
    property bag, whatever its kind. *)
Abbreviation Attributes := (gmap string value).

(** [HeadElement]: [{ type, attributes }]. *)
Record HeadElement : Type := mkHeadElement {
  type : ElementType;
  attributes : Attributes;
}.

(** [HeadAdapter<T>]: an object with one method from the element array to
    [T].  Adapters only read the array they are given. *)
Record HeadAdapter (T : Type) : Type := mkHeadAdapter {
  transform : list HeadElement → T;
}.
Arguments mkHeadAdapter {T} _.
Arguments transform {T} _ _.

(** A [URL] object is identified with its href. *)
Definition URL : Type := string.

(** ** utils.ts *)

(** [element.type === type] *)
Definition isElementOfType (element : HeadElement) (ty : ElementType) : bool :=
  bool_decide (type element = ty).

(** [getChildren]: ['children' in attributes] asks for the presence of the
    property, whatever its value; [String(attributes.children)] may
    throw, and then so does the call. *)
Definition getChildren (attrs : Attributes) : completion string :=
  match attrs !! "children" with
  | Some children => js_String children
  | None => Normal ""
  end.

(** ** Methods as state transformers *)

(** A method of an object whose fields are [S], returning an [A]. *)
Definition Method (S A : Type) : Type := S → A * S.

Global Instance Method_ret {S} : MRet (Method S) :=
  λ A (a : A) this, (a, this).
Global Instance Method_bind {S} : MBind (Method S) :=
  λ A B (k : A → Method S B) (m : Method S A) this,
    let '(a, this') := m this in k a this'.

(** Read a field. *)
Definition gets {S A} (f : S → A) : Method S A := λ this, (f this, this).
(** Assign to fields. *)
Definition modify {S} (f : S → S) : Method S () := λ this, ((), f this).

(** The value a method returns, and the object it leaves. *)
Definition result {S A} (m : Method S A) (this : S) : A := (m this).1.
Definition after {S A} (m : Method S A) (this : S) : S := (m this).2.

(** One call of the public add-operations. *)
Inductive call : Type :=
  | CallAddMeta (attrs : Attributes)
  | CallAddLink (attrs : Attributes)
  | CallAddScript (attrs : Attributes)
  | CallAddStyle (attrs : Attributes).

(** The [(kind, attributes)] pair a call hands over. *)
Definition call_pair (c : call) : HeadElement :=
  match c with
  | CallAddMeta attrs => mkHeadElement Meta attrs
  | CallAddLink attrs => mkHeadElement Link attrs
  | CallAddScript attrs => mkHeadElement Script attrs
  | CallAddStyle attrs => mkHeadElement Style attrs
  end.

(** ** index.ts: the builder that returns the raw array *)

Module Index.

Record HeadBuilder : Type := mkHeadBuilder {
  metadataBase : option URL;
  elements : list HeadElement;
}.

(** [new HeadBuilder(metadataBase?)] *)
Definition constructor (metadataBase : option URL) : HeadBuilder :=
  {| metadataBase := metadataBase; elements := [] |}.

(** [this.elements.push({ type, attributes }); return this;] *)
Definition addElement (ty : ElementType) (attrs : Attributes)
  : Method HeadBuilder HeadBuilder :=
  modify (λ this,
    {| metadataBase := metadataBase this;
       elements := elements this ++ [mkHeadElement ty attrs] |}) ;;
  gets id.

Definition getMetadataBase : Method HeadBuilder (option URL) :=
  gets metadataBase.

Definition addMeta (attrs : Attributes) := addElement Meta attrs.
Definition addLink (attrs : Attributes) := addElement Link attrs.
Definition addScript (attrs : Attributes) := addElement Script attrs.
Definition addStyle (attrs : Attributes) := addElement Style attrs.

(** [return this.elements;] the contents of the array at the call. *)
Definition build : Method HeadBuilder (list HeadElement) :=
  gets elements.

(** One public add-call on the builder. *)
Definition invoke (c : call) : Method HeadBuilder HeadBuilder :=
  match c with
  | CallAddMeta attrs => addMeta attrs
  | CallAddLink attrs => addLink attrs
  | CallAddScript attrs => addScript attrs
  | CallAddStyle attrs => addStyle attrs
  end.

(** A fluent chain [b.add..(..).add..(..)...]: every call is made on
    the object the previous call returned. *)
Definition chain (cs : list call) (b : HeadBuilder) : HeadBuilder :=
  fold_left (λ this c, result (invoke c) this) cs b.

End Index.

(** ** builder.ts: the builder with an optional adapter *)

Module Builder.

(** What [build()] hands back under the static type [TOutput]: the
    adapter's output, or, without an adapter, the element array itself
    (the source casts it to [TOutput] unchecked). *)
Inductive Output (TOutput : Type) : Type :=
  | Adapted (out : TOutput)
  | Raw (elements : list HeadElement).
Arguments Adapted {TOutput} _.
Arguments Raw {TOutput} _.

Section HeadBuilder.
Context {TOutput : Type}.

Record HeadBuilder : Type := mkHeadBuilder {
  metadataBase : option URL;
  elements : list HeadElement;
  adapter : option (HeadAdapter TOutput);
}.

(** The constructor's [options] object. *)
Record Options : Type := mkOptions {
  options_metadataBase : option URL;
  options_adapter : option (HeadAdapter TOutput);
}.

(** [new HeadBuilder(options?)]: [options?.metadataBase],
    [options?.adapter]. *)
Definition constructor (options : option Options) : HeadBuilder :=
  {| metadataBase := options ≫= options_metadataBase;
     elements := [];
     adapter := options ≫= options_adapter |}.

(** [this.elements.push({ type, attributes }); return this;] *)
Definition addElement (ty : ElementType) (attrs : Attributes)
  : Method HeadBuilder HeadBuilder :=
  modify (λ this,
    {| metadataBase := metadataBase this;
       elements := elements this ++ [mkHeadElement ty attrs];
       adapter := adapter this |}) ;;
  gets id.

Definition getMetadataBase : Method HeadBuilder (option URL) :=
  gets metadataBase.

Definition addMeta (attrs : Attributes) := addElement Meta attrs.
Definition addLink (attrs : Attributes) := addElement Link attrs.
Definition addScript (attrs : Attributes) := addElement Script attrs.
Definition addStyle (attrs : Attributes) := addElement Style attrs.

(** [if (this.adapter) return this.adapter.transform(this.elements);
    return this.elements;] *)
Definition build : Method HeadBuilder (Output TOutput) :=
  a ← gets adapter;
  match a with
  | Some a => es ← gets elements; mret (Adapted (transform a es))
  | None => es ← gets elements; mret (Raw es)
  end.

Definition invoke (c : call) : Method HeadBuilder HeadBuilder :=
  match c with
  | CallAddMeta attrs => addMeta attrs
  | CallAddLink attrs => addLink attrs
  | CallAddScript attrs => addScript attrs
  | CallAddStyle attrs => addStyle attrs
  end.

Definition chain (cs : list call) (b : HeadBuilder) : HeadBuilder :=
  fold_left (λ this c, result (invoke c) this) cs b.

(** The value the specification gives [build()] for an adapter field
    and a declaration sequence: the adapter's transform of the
    sequence, or the sequence itself. *)
Definition output (a : option (HeadAdapter TOutput))
    (es : list HeadElement) : Output TOutput :=
  match a with
  | Some a => Adapted (transform a es)
  | None => Raw es
  end.

End HeadBuilder.
Arguments HeadBuilder : clear implicits.
Arguments Options : clear implicits.

End Builder.

(** ** adapters: the TanStack Router head configuration *)

Module HeadTanstackRouterAdapter.

(** [HeadTanStackRouterAdapterResult]: every key is optional in the
    interface, hence the [?.] of the pushes below. *)
Record HeadTanStackRouterAdapterResult : Type := mkResult {
  links : option (list Attributes);
  scripts : option (list Attributes);
  meta : option (list Attributes);
  styles : option (list Attributes);
}.

(** [bucket?.push(attrs)] *)
Definition push_opt (bucket : option (list Attributes)) (attrs : Attributes)
  : option (list Attributes) :=
  (λ l, l ++ [attrs]) <$> bucket.

(** The body of [for (const element of elements)]. *)
Definition visit (config : HeadTanStackRouterAdapterResult)
    (element : HeadElement) : HeadTanStackRouterAdapterResult :=
  if isElementOfType element Meta then
    {| meta := push_opt (meta config) (attributes element);
       links := links config; scripts := scripts config;
       styles := styles config |}
  else if isElementOfType element Link then
    {| links := push_opt (links config) (attributes element);
       meta := meta config; scripts := scripts config;
       styles := styles config |}
  else if isElementOfType element Script then
    {| scripts := push_opt (scripts config) (attributes element);
       meta := meta config; links := links config;
       styles := styles config |}
  else if isElementOfType element Style then
    {| styles := push_opt (styles config) (attributes element);
       meta := meta config; links := links config;
       scripts := scripts config |}
  else config.

(** The method [transform(elements)]. *)
Definition transform (elements : list HeadElement)
  : HeadTanStackRouterAdapterResult :=
  let config :=
    {| meta := Some []; links := Some []; scripts := Some [];
       styles := Some [] |} in
  fold_left visit elements config.

(** The static [adapter(elements)] of the other revision of the file:
    the same initial record and the same loop. *)
Definition adapter (elements : list HeadElement)
  : HeadTanStackRouterAdapterResult :=
  let config :=
    {| meta := Some []; links := Some []; scripts := Some [];
       styles := Some [] |} in
  fold_left visit elements config.

(** [new HeadTanstackRouterAdapter()] as a [HeadAdapter]. *)
Definition instance : HeadAdapter HeadTanStackRouterAdapterResult :=
  mkHeadAdapter transform.

(** The attribute objects of one kind, in input order. *)
Definition of_kind (ty : ElementType) (elements : list HeadElement)
  : list Attributes :=
  attributes <$> filter (λ e, type e = ty) elements.

(** The output key that collects a kind. *)
Definition bucket (ty : ElementType) (config : HeadTanStackRouterAdapterResult)
  : option (list Attributes) :=
  match ty with
  | Meta => meta config
  | Link => links config
  | Script => scripts config
  | Style => styles config
  end.

(** How many attribute objects the four keys hold together (an absent
    key holds none). *)
Definition total (config : HeadTanStackRouterAdapterResult) : nat :=
  from_option length 0 (meta config) + from_option length 0 (links config)
  + from_option length 0 (scripts config)
  + from_option length 0 (styles config).

End HeadTanstackRouterAdapter.

(** ** adapters: React elements *)

Module HeadReactAdapter.

(** What [createElement] returns, as far as the adapter determines it:
    the element type, the key ([None] for [null]) and the props. *)
Record ReactElement : Type := mkReactElement {
  el_type : string;
  el_key : option string;
  el_props : Attributes;
}.

(** The property names [createElement] does not copy into the props. *)
Definition RESERVED_PROPS : list string := ["key"; "__self"; "__source"].

(** React's [createElement(type, config)] (React 19) called with a host
    element type and no children argument: the key is ['' + config.key]
    when [config.key !== undefined] and [null] otherwise, and the props
    are the own properties of [config] outside the reserved names. *)
Definition createElement (ty : string) (config : Attributes) : ReactElement :=
  {| el_type := ty;
     el_key :=
       match config !! "key" with
       | None | Some VUndefined => None
       | Some k => Some ("" +:+ ToString k)
       end;
     el_props := filter (λ kv, kv.1 ∉ RESERVED_PROPS) config |}.

(** The object literal [{ key: k, ...attributes }]: the spread copies
    every own property of [attributes] over what is already there. *)
Definition key_then_spread (k : string) (attrs : Attributes) : Attributes :=
  attrs ∪ {[ "key" := VStr k ]}.

(** The template literal [`head-${type}-${index}`]. *)
Definition head_key (ty : ElementType) (index : nat) : string :=
  "head-" +:+ type_name ty +:+ "-" +:+ pretty index.

(** The callback of the [map] below, at one index and element. *)
Definition node_at (index : nat) (element : HeadElement) : ReactElement :=
  let ty := type element in
  let attrs := attributes element in
  createElement (type_name ty) (key_then_spread (head_key ty index) attrs).

(** The static [adapter(elements)]: [elements.map((element, index) => ..)]. *)
Definition adapter (elements : list HeadElement) : list ReactElement :=
  imap (λ index element, node_at index element) elements.

(** The instance method, which calls the static one. *)
Definition adapter_method (elements : list HeadElement) : list ReactElement :=
  adapter elements.

End HeadReactAdapter.

(** * Properties *)

(** ** The builders *)

Section method_facts.
Context {S : Type}.

Lemma result_gets {A} (f : S → A) this : result (gets f) this = f this.
Proof. reflexivity. Qed.

Lemma after_gets {A} (f : S → A) this : after (gets f) this = this.
Proof. reflexivity. Qed.

Lemma result_modify_then_this (f : S → S) this :
  result (modify f ;; gets id) this = f this.
Proof. reflexivity. Qed.

Lemma after_modify_then_this (f : S → S) this :
  after (modify f ;; gets id) this = f this.
Proof. reflexivity. Qed.
End method_facts.

Module IndexFacts.
Import Index.

(** An add-call returns the instance it was called on, grown by one. *)
Lemma index_invoke_fluent c b : result (invoke c) b = after (invoke c) b.
Proof. by destruct c. Qed.

Lemma index_invoke_elements c b :
  elements (result (invoke c) b) = elements b ++ [call_pair c].
Proof. by destruct c. Qed.

Lemma index_invoke_metadataBase c b :
  metadataBase (result (invoke c) b) = metadataBase b.
Proof. by destruct c. Qed.

Lemma index_chain_snoc cs c b :
  chain (cs ++ [c]) b = result (invoke c) (chain cs b).
Proof. unfold chain. by rewrite fold_left_app. Qed.

Lemma index_chain_app cs cs' b : chain (cs ++ cs') b = chain cs' (chain cs b).
Proof. unfold chain. by rewrite fold_left_app. Qed.

Lemma index_chain_elements cs b :
  elements (chain cs b) = elements b ++ (call_pair <$> cs).
Proof.
  induction cs as [|c cs IH] using rev_ind.
  - by rewrite app_nil_r.
  - rewrite index_chain_snoc, index_invoke_elements, IH, fmap_app.
    by rewrite <- app_assoc.
Qed.

Lemma index_chain_metadataBase cs b : metadataBase (chain cs b) = metadataBase b.
Proof.
  induction cs as [|c cs IH] using rev_ind; [done|].
  by rewrite index_chain_snoc, index_invoke_metadataBase.
Qed.

Lemma index_build_reads b : result build b = elements b ∧ after build b = b.
Proof. done. Qed.
End IndexFacts.

Module BuilderFacts.
Import Builder.

Section facts.
Context {TOutput : Type}.
Implicit Types (b : HeadBuilder TOutput) (c : call) (cs : list call).

Lemma builder_invoke_fluent c b : result (invoke c) b = after (invoke c) b.
Proof. by destruct c. Qed.

Lemma builder_invoke_elements c b :
  elements (result (invoke c) b) = elements b ++ [call_pair c].
Proof. by destruct c. Qed.

Lemma builder_invoke_metadataBase c b :
  metadataBase (result (invoke c) b) = metadataBase b.
Proof. by destruct c. Qed.

Lemma builder_invoke_adapter c b : adapter (result (invoke c) b) = adapter b.
Proof. by destruct c. Qed.

Lemma builder_chain_snoc cs c b :
  chain (cs ++ [c]) b = result (invoke c) (chain cs b).
Proof. unfold chain. by rewrite fold_left_app. Qed.

Lemma builder_chain_app cs cs' b : chain (cs ++ cs') b = chain cs' (chain cs b).
Proof. unfold chain. by rewrite fold_left_app. Qed.

Lemma builder_chain_elements cs b :
  elements (chain cs b) = elements b ++ (call_pair <$> cs).
Proof.
  induction cs as [|c cs IH] using rev_ind.
  - by rewrite app_nil_r.
  - rewrite builder_chain_snoc, builder_invoke_elements, IH, fmap_app.
    by rewrite <- app_assoc.
Qed.

Lemma builder_chain_metadataBase cs b : metadataBase (chain cs b) = metadataBase b.
Proof.
  induction cs as [|c cs IH] using rev_ind; [done|].
  by rewrite builder_chain_snoc, builder_invoke_metadataBase.
Qed.

Lemma builder_chain_adapter cs b : adapter (chain cs b) = adapter b.
Proof.
  induction cs as [|c cs IH] using rev_ind; [done|].
  by rewrite builder_chain_snoc, builder_invoke_adapter.
Qed.

Lemma builder_build_reads b :
  result build b = output (adapter b) (elements b) ∧ after build b = b.
Proof.
  unfold result, after, build, output.
  destruct b as [mb es [a|]]; done.
Qed.

Lemma builder_build_chain cs (options : option (Options TOutput)) :
  result build (chain cs (constructor options))
  = output (options ≫= options_adapter) (call_pair <$> cs).
Proof.
  destruct (builder_build_reads (chain cs (constructor options))) as [-> _].
  by rewrite builder_chain_adapter, builder_chain_elements.
Qed.
End facts.
End BuilderFacts.

(** ** Builder claims *)

Import Builder.

(** C1. Whatever add-calls are chained onto a builder constructed without
    an adapter, [build()] returns the [{type, attributes}] records of the
    calls, one per call and in call order; this holds for the builder of
    [index.ts] and for the one of [builder.ts]. *)
Theorem build_without_adapter_is_call_sequence :
  ∀ (TOutput : Type) (options : option (Options TOutput))
    (metadataBase : option URL) (cs : list call),
    options ≫= options_adapter = None →
    result Index.build (Index.chain cs (Index.constructor metadataBase))
      = call_pair <$> cs
    ∧ result build (chain cs (constructor options)) = Raw (call_pair <$> cs).
Proof.
  intros TOutput options mb cs Hnone. split.
  - destruct (IndexFacts.index_build_reads
                (Index.chain cs (Index.constructor mb))) as [-> _].
    by rewrite IndexFacts.index_chain_elements.
  - by rewrite BuilderFacts.builder_build_chain, Hnone.
Qed.

Lemma build_without_adapter_is_call_sequence_witness :
  let cs := [CallAddMeta {[ "charSet" := VStr "utf-8" ]};
             CallAddLink {[ "rel" := VStr "canonical" ]};
             CallAddMeta {[ "charSet" := VStr "utf-8" ]}] in
  result Index.build (Index.chain cs (Index.constructor None))
    = call_pair <$> cs
  ∧ result build (chain cs (constructor (TOutput := nat) None))
    = Raw (call_pair <$> cs).
Proof.
  intros cs.
  apply (build_without_adapter_is_call_sequence nat None None cs).
  reflexivity.
Defined.

(** C6. After any chain of add-calls the accumulated sequence is the
    sequence of the calls' records, and [build()] returns the adapter's
    [transform] of that sequence when an adapter was given to the
    constructor, and the sequence itself otherwise. *)
Theorem build_dispatches_on_adapter :
  ∀ (TOutput : Type) (options : option (Options TOutput)) (cs : list call),
    elements (chain cs (constructor options)) = call_pair <$> cs
    ∧ result build (chain cs (constructor options))
      = match options ≫= options_adapter with
        | Some a => Adapted (transform a (call_pair <$> cs))
        | None => Raw (call_pair <$> cs)
        end.
Proof.
  intros TOutput options cs. split.
  - by rewrite BuilderFacts.builder_chain_elements.
  - by rewrite BuilderFacts.builder_build_chain.
Qed.

(** C7. On either builder, in any state, [build()] leaves the object as it
    was, so a second [build()] right after the first returns the same
    result; and a [build()] made after further add-calls returns what the
    sequence holds then: the earlier elements followed by the new calls'
    records. *)
Theorem build_is_repeatable :
  ∀ (TOutput : Type) (b : HeadBuilder TOutput) (b0 : Index.HeadBuilder)
    (cs : list call),
    (after build b = b
     ∧ result build (after build b) = result build b
     ∧ result build (chain cs (after build b))
       = output (adapter b) (elements b ++ (call_pair <$> cs)))
    ∧ (after Index.build b0 = b0
       ∧ result Index.build (after Index.build b0) = result Index.build b0
       ∧ result Index.build (Index.chain cs (after Index.build b0))
         = Index.elements b0 ++ (call_pair <$> cs)).
Proof.
  intros TOutput b b0 cs. split.
  - destruct (BuilderFacts.builder_build_reads b) as [_ Hafter].
    rewrite Hafter. split_and!; [done..|].
    destruct (BuilderFacts.builder_build_reads (chain cs b)) as [-> _].
    by rewrite BuilderFacts.builder_chain_adapter,
      BuilderFacts.builder_chain_elements.
  - destruct (IndexFacts.index_build_reads b0) as [_ Hafter].
    rewrite Hafter. split_and!; [done..|].
    destruct (IndexFacts.index_build_reads (Index.chain cs b0)) as [-> _].
    by rewrite IndexFacts.index_chain_elements.
Qed.

(** C8. Given the same add-calls, the builder of [index.ts] and the
    builder of [builder.ts] constructed without an adapter hold the same
    declaration sequence and the same base URL, and their [build()]
    results are the same array. *)
Theorem builders_agree_without_adapter :
  ∀ (TOutput : Type) (options : option (Options TOutput)) (cs : list call),
    options ≫= options_adapter = None →
    let b := chain cs (constructor options) in
    let b0 :=
      Index.chain cs (Index.constructor (options ≫= options_metadataBase)) in
    elements b = Index.elements b0
    ∧ metadataBase b = Index.metadataBase b0
    ∧ result build b = Raw (result Index.build b0).
Proof.
  intros TOutput options cs Hnone b b0. subst b b0.
  rewrite BuilderFacts.builder_chain_elements,
    IndexFacts.index_chain_elements,
    BuilderFacts.builder_chain_metadataBase,
    IndexFacts.index_chain_metadataBase,
    BuilderFacts.builder_build_chain, Hnone.
  destruct (IndexFacts.index_build_reads
              (Index.chain cs
                 (Index.constructor (options ≫= options_metadataBase))))
    as [-> _].
  by rewrite IndexFacts.index_chain_elements.
Qed.

Lemma builders_agree_without_adapter_witness :
  let options : option (Options nat) :=
    Some (mkOptions (Some "https://devsantara.com") None) in
  let cs := [CallAddScript {[ "src" := VStr "/analytics.js" ]};
             CallAddStyle {[ "children" := VStr ".hero{}" ]}] in
  let b := chain cs (constructor options) in
  let b0 := Index.chain cs (Index.constructor (Some "https://devsantara.com")) in
  elements b = Index.elements b0
  ∧ metadataBase b = Index.metadataBase b0
  ∧ result build b = Raw (result Index.build b0).
Proof.
  intros options cs.
  apply (builders_agree_without_adapter nat options cs).
  reflexivity.
Defined.

(** C9. [getMetadataBase()] returns the base URL the constructor was given
    ([None], the language's [undefined], when it was given none), right
    after construction and after any add-calls alike; and two builders
    that differ in nothing but their base URL return the same [build()]
    result for the same add-calls. *)
Theorem metadataBase_is_stored_and_inert :
  ∀ (TOutput : Type) (options options' : option (Options TOutput))
    (metadataBase metadataBase' : option URL) (cs : list call),
    options ≫= options_adapter = options' ≫= options_adapter →
    (result Index.getMetadataBase
       (Index.chain cs (Index.constructor metadataBase)) = metadataBase
     ∧ result getMetadataBase (chain cs (constructor options))
       = options ≫= options_metadataBase)
    ∧ (result Index.build (Index.chain cs (Index.constructor metadataBase))
       = result Index.build (Index.chain cs (Index.constructor metadataBase'))
       ∧ result build (chain cs (constructor options))
         = result build (chain cs (constructor options'))).
Proof.
  intros TOutput options options' mb mb' cs Hadapter. split_and!.
  - unfold Index.getMetadataBase. rewrite result_gets.
    by rewrite IndexFacts.index_chain_metadataBase.
  - unfold getMetadataBase. rewrite result_gets.
    by rewrite BuilderFacts.builder_chain_metadataBase.
  - unfold Index.build. rewrite !result_gets.
    by rewrite !IndexFacts.index_chain_elements.
  - by rewrite !BuilderFacts.builder_build_chain, Hadapter.
Qed.

Lemma metadataBase_is_stored_and_inert_witness :
  let a : option (HeadAdapter nat) := Some (mkHeadAdapter length) in
  let options := Some (mkOptions (Some "https://devsantara.com") a) in
  let options' := Some (mkOptions None a) in
  let cs := [CallAddLink {[ "href" := VStr "/og-image.jpg" ]}] in
  (result Index.getMetadataBase
     (Index.chain cs (Index.constructor (Some "https://devsantara.com")))
   = Some "https://devsantara.com"
   ∧ result getMetadataBase (chain cs (constructor options))
     = Some "https://devsantara.com")
  ∧ (result Index.build
       (Index.chain cs (Index.constructor (Some "https://devsantara.com")))
     = result Index.build (Index.chain cs (Index.constructor None))
     ∧ result build (chain cs (constructor options))
       = result build (chain cs (constructor options'))).
Proof.
  intros a options options' cs.
  apply (metadataBase_is_stored_and_inert nat options options'
           (Some "https://devsantara.com") None cs).
  reflexivity.
Defined.

(** ** utils.ts *)







(** ** The TanStack Router adapter *)

Module TanstackFacts.
Import HeadTanstackRouterAdapter.

Lemma of_kind_nil ty : of_kind ty [] = [].
Proof. reflexivity. Qed.

Lemma of_kind_cons ty e es :
  of_kind ty (e :: es)
  = if decide (type e = ty) then attributes e :: of_kind ty es
    else of_kind ty es.
Proof.
  unfold of_kind. rewrite filter_cons. by destruct (decide (type e = ty)).
Qed.

Lemma of_kind_app ty es es' :
  of_kind ty (es ++ es') = of_kind ty es ++ of_kind ty es'.
Proof. unfold of_kind. by rewrite filter_app, fmap_app. Qed.

(** The four kinds split the input: nothing falls outside them. *)
Lemma of_kind_lengths es :
  length (of_kind Meta es) + length (of_kind Link es)
  + length (of_kind Script es) + length (of_kind Style es) = length es.
Proof.
  induction es as [|[[] attrs] es IH]; [done|..];
    rewrite !of_kind_cons; simpl; lia.
Qed.

Lemma of_kind_empty ty es :
  (∀ e, e ∈ es → type e ≠ ty) → of_kind ty es = [].
Proof.
  induction es as [|e es IH]; intros Hno; [done|].
  rewrite of_kind_cons. destruct (decide (type e = ty)) as [Heq|_].
  - destruct (Hno e); [left | done].
  - apply IH. intros e' He'. apply Hno. by right.
Qed.

Lemma push_opt_app (bucket : option (list Attributes)) attrs (tl : list Attributes) :
  (λ l, l ++ tl) <$> push_opt bucket attrs
  = (λ l, l ++ attrs :: tl) <$> bucket.
Proof.
  destruct bucket as [l|]; simpl; [|done].
  by rewrite <- app_assoc.
Qed.

(** One visit appends the element's attributes to the bucket of its kind
    and to no other. *)
Lemma bucket_visit ty config e :
  bucket ty (visit config e)
  = if decide (type e = ty) then push_opt (bucket ty config) (attributes e)
    else bucket ty config.
Proof. by destruct e as [[] attrs], ty. Qed.

(** The loop as a whole: every bucket is extended by the attribute
    objects of its kind, in input order. *)
Lemma bucket_loop ty es config :
  bucket ty (fold_left visit es config)
  = (λ l, l ++ of_kind ty es) <$> bucket ty config.
Proof.
  revert config. induction es as [|e es IH]; intros config; simpl.
  - rewrite of_kind_nil. destruct (bucket ty config); simpl; [|done].
    by rewrite app_nil_r.
  - rewrite IH, bucket_visit, of_kind_cons.
    destruct (decide (type e = ty)); [|done].
    apply push_opt_app.
Qed.

Lemma bucket_transform ty es : bucket ty (transform es) = Some (of_kind ty es).
Proof. unfold transform. rewrite bucket_loop. by destruct ty. Qed.

Lemma bucket_adapter ty es : bucket ty (adapter es) = Some (of_kind ty es).
Proof. unfold adapter. rewrite bucket_loop. by destruct ty. Qed.

Lemma total_buckets config m l s st :
  bucket Meta config = Some m → bucket Link config = Some l →
  bucket Script config = Some s → bucket Style config = Some st →
  total config = length m + length l + length s + length st.
Proof. unfold total. simpl. by intros -> -> -> ->. Qed.

Lemma adapter_is_transform es : adapter es = transform es.
Proof. reflexivity. Qed.

End TanstackFacts.

Import HeadTanstackRouterAdapter.

(** C2. For every declaration sequence, the grouping adapter (its
    [transform] method and the static [adapter] alike) binds the key of
    each kind to the attribute objects of the input elements of that
    kind, in their input order, and the four keys together hold as many
    attribute objects as the input has elements. *)
Theorem grouping_partitions_input :
  ∀ (es : list HeadElement),
    (∀ ty, bucket ty (transform es) = Some (of_kind ty es))
    ∧ total (transform es) = length es
    ∧ adapter es = transform es.
Proof.
  intros es. split_and!.
  - intros ty. apply TanstackFacts.bucket_transform.
  - rewrite (TanstackFacts.total_buckets _ _ _ _ _
               (TanstackFacts.bucket_transform Meta es)
               (TanstackFacts.bucket_transform Link es)
               (TanstackFacts.bucket_transform Script es)
               (TanstackFacts.bucket_transform Style es)).
    apply TanstackFacts.of_kind_lengths.
  - apply TanstackFacts.adapter_is_transform.
Qed.

(** C3. For every declaration sequence the output record has all four
    keys, each bound to a list, and the key of a kind that no input
    element has is bound to the empty list. *)
Theorem grouping_keys_always_present :
  ∀ (es : list HeadElement),
    (is_Some (meta (transform es)) ∧ is_Some (links (transform es))
     ∧ is_Some (scripts (transform es)) ∧ is_Some (styles (transform es)))
    ∧ (∀ ty, (∀ e, e ∈ es → type e ≠ ty) → bucket ty (transform es) = Some [])
    ∧ adapter es = transform es.
Proof.
  intros es. split_and!.
  - eexists. exact (TanstackFacts.bucket_transform Meta es).
  - eexists. exact (TanstackFacts.bucket_transform Link es).
  - eexists. exact (TanstackFacts.bucket_transform Script es).
  - eexists. exact (TanstackFacts.bucket_transform Style es).
  - intros ty Hno.
    by rewrite TanstackFacts.bucket_transform, TanstackFacts.of_kind_empty.
  - apply TanstackFacts.adapter_is_transform.
Qed.

Lemma grouping_keys_always_present_witness :
  let es := [mkHeadElement Meta {[ "name" := VStr "description" ]};
             mkHeadElement Link {[ "rel" := VStr "canonical" ]}] in
  bucket Script (transform es) = Some []
  ∧ bucket Style (transform es) = Some [].
Proof.
  intros es.
  destruct (grouping_keys_always_present es) as (_ & Hempty & _).
  split; apply Hempty; intros e He;
    repeat (apply elem_of_cons in He as [->|He]; [discriminate|]);
    by apply elem_of_nil in He.
Defined.

(** ** The React adapter *)

Module ReactFacts.
Import HeadReactAdapter.

(** The template literal determines both the kind and the position. *)
Lemma head_key_inj ty ty' (i j : nat) :
  head_key ty i = head_key ty' j → ty = ty' ∧ i = j.
Proof.
  unfold head_key. intros H.
  apply (inj (String.append "head-")) in H.
  destruct ty, ty'; cbn [type_name] in H; try discriminate H.
  all: split; [reflexivity|].
  all: do 2 apply (inj (String.append _)) in H.
  all: by apply (inj pretty) in H.
Qed.

Lemma adapter_lookup es i : adapter es !! i = node_at i <$> es !! i.
Proof. unfold adapter. by rewrite list_lookup_imap. Qed.

Lemma adapter_length es : length (adapter es) = length es.
Proof. unfold adapter. by rewrite length_imap. Qed.

(** The injected key never reaches the props, and neither does a key the
    attributes bring along. *)
Lemma props_of_spread ty k (attrs : Attributes) :
  el_props (createElement ty (key_then_spread k attrs))
  = filter (λ kv : string * value, kv.1 ∉ RESERVED_PROPS) attrs.
Proof.
  cbn [el_props createElement].
  apply map_eq. intros name. rewrite !map_lookup_filter.
  unfold key_then_spread.
  destruct (decide (name = "key")) as [->|Hne].
  - destruct ((attrs ∪ {["key" := VStr k]}) !! "key"), (attrs !! "key");
      simpl; try done.
    all: rewrite option_guard_False; [done|]; intros Hn; apply Hn; set_solver.
  - rewrite lookup_union, lookup_singleton_ne by done.
    by rewrite (right_id None _).
Qed.

Lemma node_at_props i e :
  el_props (node_at i e)
  = filter (λ kv : string * value, kv.1 ∉ RESERVED_PROPS) (attributes e).
Proof.
  exact (props_of_spread (type_name (type e)) (head_key (type e) i)
           (attributes e)).
Qed.

Lemma filter_reserved_id (attrs : Attributes) :
  (∀ name, name ∈ RESERVED_PROPS → attrs !! name = None) →
  filter (λ kv : string * value, kv.1 ∉ RESERVED_PROPS) attrs = attrs.
Proof.
  intros Hfree. apply map_filter_id. intros name v Hname Hres.
  simpl in Hres. apply Hfree in Hres. congruence.
Qed.

(** Without a [key] entry in the attributes the injected key stands. *)
Lemma node_at_key_default i e :
  attributes e !! "key" = None →
  el_key (node_at i e) = Some (head_key (type e) i).
Proof.
  intros Hnone. unfold node_at, key_then_spread.
  cbn [el_key createElement].
  by rewrite lookup_union_r, lookup_singleton_eq.
Qed.


End ReactFacts.

Import HeadReactAdapter.

(** An element whose attributes carry a [key] of their own, as the
    attribute types allow. *)
Example keyed_element_nodes :
  let e := mkHeadElement Meta {[ "key" := VStr "k"; "name" := VStr "a" ]} in
  adapter [e; e]
  = [mkReactElement "meta" (Some "k") {[ "name" := VStr "a" ]};
     mkReactElement "meta" (Some "k") {[ "name" := VStr "a" ]}].
Proof. vm_compute. reflexivity. Qed.

(** C4, as stated, fails: the props of a node are not the attributes when
    the attributes carry a [key] entry, which goes to the node's key and
    not to its props. *)
Lemma react_props_counterexample :
  ¬ (∀ es : list HeadElement,
       length (adapter es) = length es
       ∧ ∀ i e, es !! i = Some e →
           ∃ n, adapter es !! i = Some n
                ∧ el_type n = type_name (type e)
                ∧ el_props n = attributes e).
Proof.
  intros Hclaim.
  pose (e := mkHeadElement Meta {[ "key" := VStr "k"; "name" := VStr "a" ]}).
  destruct (Hclaim [e]) as [_ Hnodes].
  destruct (Hnodes 0 e eq_refl) as (n & Hn & _ & Hprops).
  rewrite ReactFacts.adapter_lookup in Hn.
  change (Some (node_at 0 e) = Some n) in Hn. injection Hn as <-.
  rewrite ReactFacts.node_at_props in Hprops.
  apply (f_equal (lookup "key")) in Hprops.
  vm_compute in Hprops. discriminate Hprops.
Qed.

(** C4, amended. The output has the length and order of the input: the
    node at position [i] has the element type of the input element at
    [i], and its props are that element's attributes without the entries
    under the reserved names ([key], [__self], [__source]); they are the
    attributes exactly when the attributes have no such entry. *)
Theorem react_nodes_follow_input :
  ∀ (es : list HeadElement),
    length (adapter es) = length es
    ∧ ∀ i e, es !! i = Some e →
        ∃ n, adapter es !! i = Some n
             ∧ el_type n = type_name (type e)
             ∧ el_props n
               = filter (λ kv : string * value, kv.1 ∉ RESERVED_PROPS)
                   (attributes e)
             ∧ ((∀ name, name ∈ RESERVED_PROPS → attributes e !! name = None) →
                el_props n = attributes e).
Proof.
  intros es. split; [apply ReactFacts.adapter_length|].
  intros i e Hi. exists (node_at i e).
  rewrite ReactFacts.adapter_lookup, Hi. split_and!; [done..| |].
  - apply ReactFacts.node_at_props.
  - intros Hfree.
    by rewrite ReactFacts.node_at_props, ReactFacts.filter_reserved_id.
Qed.

Lemma react_nodes_follow_input_witness :
  let attrs : Attributes :=
    {[ "rel" := VStr "canonical"; "href" := VStr "/a" ]} in
  let es := [mkHeadElement Meta {[ "charSet" := VStr "utf-8" ]};
             mkHeadElement Link attrs] in
  ∃ n, adapter es !! 1 = Some n ∧ el_type n = "link" ∧ el_props n = attrs.
Proof.
  intros attrs es.
  destruct (react_nodes_follow_input es) as [_ Hnodes].
  destruct (Hnodes 1 (mkHeadElement Link attrs) eq_refl)
    as (n & Hn & Hty & _ & Hprops).
  exists n. split_and!; [done..|].
  apply Hprops. intros name Hname.
  repeat (apply elem_of_cons in Hname as [->|Hname]; [reflexivity|]).
  by apply elem_of_nil in Hname.
Defined.

(** C5, as stated, fails: two elements whose attributes carry the same
    [key] entry yield two nodes with that key, which is neither the
    generated key nor distinct from the other's. *)
Lemma react_keys_counterexample :
  ¬ (∀ es : list HeadElement,
       (∀ i e, es !! i = Some e →
          ∃ n, adapter es !! i = Some n
               ∧ el_key n = Some (head_key (type e) i))
       ∧ NoDup (el_key <$> adapter es)).
Proof.
  intros Hclaim.
  pose (e := mkHeadElement Meta {[ "key" := VStr "k"; "name" := VStr "a" ]}).
  destruct (Hclaim [e; e]) as [_ Hdistinct].
  apply NoDup_cons_1_1 in Hdistinct. apply Hdistinct.
  vm_compute. left.
Qed.

(** C5, amended. A node made from attributes without a [key] entry, at
    position [i] and of kind [k], has the key ["head-k-i"]; the keys of
    two such nodes at different positions differ, so that all keys are
    pairwise distinct when no element's attributes carry a [key]
    entry. *)
Theorem react_generated_keys :
  ∀ (es : list HeadElement),
    (∀ i e, es !! i = Some e → attributes e !! "key" = None →
       ∃ n, adapter es !! i = Some n
            ∧ el_key n = Some (head_key (type e) i))
    ∧ (∀ i j ei ej ni nj,
         es !! i = Some ei → es !! j = Some ej →
         attributes ei !! "key" = None → attributes ej !! "key" = None →
         adapter es !! i = Some ni → adapter es !! j = Some nj →
         i ≠ j → el_key ni ≠ el_key nj)
    ∧ ((∀ e, e ∈ es → attributes e !! "key" = None) →
       NoDup (el_key <$> adapter es)).
Proof.
  intros es.
  assert (Hpair : ∀ i j ei ej ni nj,
             es !! i = Some ei → es !! j = Some ej →
             attributes ei !! "key" = None → attributes ej !! "key" = None →
             adapter es !! i = Some ni → adapter es !! j = Some nj →
             el_key ni = el_key nj → i = j).
  { intros i j ei ej ni nj Hi Hj Hki Hkj Hni Hnj Heq.
    rewrite ReactFacts.adapter_lookup, Hi in Hni.
    rewrite ReactFacts.adapter_lookup, Hj in Hnj.
    injection Hni as <-. injection Hnj as <-.
    rewrite (ReactFacts.node_at_key_default _ _ Hki),
      (ReactFacts.node_at_key_default _ _ Hkj) in Heq.
    apply (inj Some) in Heq.
    by apply ReactFacts.head_key_inj in Heq as [_ ?]. }
  split_and!.
  - intros i e Hi Hkey. exists (node_at i e).
    rewrite ReactFacts.adapter_lookup, Hi. split; [done|].
    by apply ReactFacts.node_at_key_default.
  - intros i j ei ej ni nj Hi Hj Hki Hkj Hni Hnj Hne Heq.
    apply Hne. by eapply Hpair.
  - intros Hall. apply NoDup_alt. intros i j k Hi Hj.
    rewrite list_lookup_fmap in Hi, Hj.
    destruct (adapter es !! i) as [ni|] eqn:Hni; [|done].
    destruct (adapter es !! j) as [nj|] eqn:Hnj; [|done].
    injection Hi as Hi. injection Hj as Hj.
    pose proof Hni as Hni'. pose proof Hnj as Hnj'.
    rewrite ReactFacts.adapter_lookup in Hni', Hnj'.
    destruct (es !! i) as [ei|] eqn:Hei; [|done].
    destruct (es !! j) as [ej|] eqn:Hej; [|done].
    eapply (Hpair i j ei ej ni nj); try done.
    + apply Hall. by eapply list_elem_of_lookup_2.
    + apply Hall. by eapply list_elem_of_lookup_2.
    + congruence.
Qed.

Lemma react_generated_keys_witness :
  let es := [mkHeadElement Meta {[ "charSet" := VStr "utf-8" ]};
             mkHeadElement Link {[ "rel" := VStr "canonical" ]};
             mkHeadElement Meta {[ "name" := VStr "description" ]}] in
  (∃ n, adapter es !! 2 = Some n ∧ el_key n = Some "head-meta-2")
  ∧ NoDup (el_key <$> adapter es).
Proof.
  intros es.
  destruct (react_generated_keys es) as (Hkey & _ & Hdistinct).
  split.
  - apply (Hkey 2 (mkHeadElement Meta {[ "name" := VStr "description" ]}));
      reflexivity.
  - apply Hdistinct. intros e He.
    repeat (apply elem_of_cons in He as [->|He]; [reflexivity|]).
    by apply elem_of_nil in He.
Defined.

(** * Further properties of the code *)

(** ** The builders and their adapters together *)

(** X1. Add-calls only ever append: on either builder, in any state, the
    elements held before a chain of add-calls are a prefix of those held
    after it, the array has grown by exactly one element per call, and
    neither the base URL nor the adapter has changed. *)
Theorem builder_sequence_append_only :
  ∀ (TOutput : Type) (b : Builder.HeadBuilder TOutput)
    (b0 : Index.HeadBuilder) (cs : list call),
    (Builder.elements b `prefix_of` Builder.elements (Builder.chain cs b)
     ∧ length (Builder.elements (Builder.chain cs b))
       = length (Builder.elements b) + length cs
     ∧ Builder.metadataBase (Builder.chain cs b) = Builder.metadataBase b
     ∧ Builder.adapter (Builder.chain cs b) = Builder.adapter b)
    ∧ (Index.elements b0 `prefix_of` Index.elements (Index.chain cs b0)
       ∧ length (Index.elements (Index.chain cs b0))
         = length (Index.elements b0) + length cs
       ∧ Index.metadataBase (Index.chain cs b0) = Index.metadataBase b0).
Proof.
  intros TOutput b b0 cs. split; split_and!.
  - rewrite BuilderFacts.builder_chain_elements. by apply prefix_app_r.
  - by rewrite BuilderFacts.builder_chain_elements, length_app, length_fmap.
  - apply BuilderFacts.builder_chain_metadataBase.
  - apply BuilderFacts.builder_chain_adapter.
  - rewrite IndexFacts.index_chain_elements. by apply prefix_app_r.
  - by rewrite IndexFacts.index_chain_elements, length_app, length_fmap.
  - apply IndexFacts.index_chain_metadataBase.
Qed.

(** X2. Handing an adapter to the constructor of [builder.ts] gives the
    same result as building the raw array with the builder of [index.ts]
    from the same add-calls and passing it to the adapter's [transform]
    (here [f]) afterwards. *)
Theorem injected_adapter_is_transform_of_raw_build :
  ∀ (TOutput : Type) (f : list HeadElement → TOutput)
    (metadataBase : option URL) (cs : list call),
    result Builder.build
      (Builder.chain cs
         (Builder.constructor
            (Some (Builder.mkOptions metadataBase
                     (Some (mkHeadAdapter f))))))
    = Builder.Adapted
        (f (result Index.build
              (Index.chain cs (Index.constructor metadataBase)))).
Proof.
  intros TOutput f mb cs.
  rewrite BuilderFacts.builder_build_chain.
  destruct (IndexFacts.index_build_reads
              (Index.chain cs (Index.constructor mb))) as [-> _].
  by rewrite IndexFacts.index_chain_elements.
Qed.

(** X3. A builder constructed with the TanStack Router adapter returns
    from [build()] a record whose key for each kind holds the attribute
    objects of the add-calls of that kind, in call order, and whose four
    keys hold one attribute object per add-call. *)
Theorem build_with_grouping_adapter :
  ∀ (metadataBase : option URL) (cs : list call),
    ∃ config,
      result Builder.build
        (Builder.chain cs
           (Builder.constructor
              (Some (Builder.mkOptions metadataBase
                       (Some HeadTanstackRouterAdapter.instance)))))
      = Builder.Adapted config
      ∧ (∀ ty, HeadTanstackRouterAdapter.bucket ty config
               = Some (HeadTanstackRouterAdapter.of_kind ty (call_pair <$> cs)))
      ∧ HeadTanstackRouterAdapter.total config = length cs.
Proof.
  intros mb cs.
  exists (HeadTanstackRouterAdapter.transform (call_pair <$> cs)).
  split_and!.
  - by rewrite BuilderFacts.builder_build_chain.
  - intros ty. apply TanstackFacts.bucket_transform.
  - rewrite (TanstackFacts.total_buckets _ _ _ _ _
               (TanstackFacts.bucket_transform Meta _)
               (TanstackFacts.bucket_transform Link _)
               (TanstackFacts.bucket_transform Script _)
               (TanstackFacts.bucket_transform Style _)).
    by rewrite TanstackFacts.of_kind_lengths, length_fmap.
Qed.

(** ** The TanStack Router adapter *)

(** Two results with the same four buckets are the same record. *)
Lemma grouping_result_ext
    (r r' : HeadTanstackRouterAdapter.HeadTanStackRouterAdapterResult) :
  (∀ ty, HeadTanstackRouterAdapter.bucket ty r
         = HeadTanstackRouterAdapter.bucket ty r') →
  r = r'.
Proof.
  intros Hb. destruct r, r'.
  pose proof (Hb Meta) as Hm. pose proof (Hb Link) as Hl.
  pose proof (Hb Script) as Hs. pose proof (Hb Style) as Hst.
  simpl in *. congruence.
Qed.

(** X4. Grouping distributes over concatenation: each bucket of the
    result for [es ++ es'] is the bucket for [es] followed by the bucket
    for [es']. *)
Theorem grouping_append :
  ∀ (es es' : list HeadElement) (ty : ElementType),
    ∃ l l',
      HeadTanstackRouterAdapter.bucket ty
        (HeadTanstackRouterAdapter.transform es) = Some l
      ∧ HeadTanstackRouterAdapter.bucket ty
          (HeadTanstackRouterAdapter.transform es') = Some l'
      ∧ HeadTanstackRouterAdapter.bucket ty
          (HeadTanstackRouterAdapter.transform (es ++ es')) = Some (l ++ l').
Proof.
  intros es es' ty.
  exists (HeadTanstackRouterAdapter.of_kind ty es),
         (HeadTanstackRouterAdapter.of_kind ty es').
  rewrite !TanstackFacts.bucket_transform.
  by rewrite TanstackFacts.of_kind_app.
Qed.

(** X5. The result keeps exactly the per-kind subsequences of the input:
    two inputs are grouped into the same record if and only if, for
    every kind, they list the same attribute objects of that kind in the
    same order. *)
Theorem grouping_equal_iff_same_subsequences :
  ∀ (es es' : list HeadElement),
    HeadTanstackRouterAdapter.transform es
    = HeadTanstackRouterAdapter.transform es'
    ↔ ∀ ty, HeadTanstackRouterAdapter.of_kind ty es
            = HeadTanstackRouterAdapter.of_kind ty es'.
Proof.
  intros es es'. split.
  - intros Heq ty.
    pose proof (TanstackFacts.bucket_transform ty es) as H.
    rewrite Heq, TanstackFacts.bucket_transform in H. congruence.
  - intros Hsame. apply grouping_result_ext. intros ty.
    by rewrite !TanstackFacts.bucket_transform, Hsame.
Qed.

Lemma grouping_equal_iff_same_subsequences_witness :
  let m := mkHeadElement Meta {[ "charSet" := VStr "utf-8" ]} in
  let l := mkHeadElement Link {[ "rel" := VStr "canonical" ]} in
  HeadTanstackRouterAdapter.transform [m; l; m]
  = HeadTanstackRouterAdapter.transform [l; m; m].
Proof.
  intros m l.
  apply (proj2 (grouping_equal_iff_same_subsequences [m; l; m] [l; m; m])).
  intros []; reflexivity.
Defined.

(** X6. The interleaving of different kinds is lost: exchanging two
    neighbouring elements of different kinds, anywhere in the input,
    does not change the result. *)
Theorem grouping_ignores_cross_kind_order :
  ∀ (es1 es2 : list HeadElement) (a b : HeadElement),
    type a ≠ type b →
    HeadTanstackRouterAdapter.transform (es1 ++ a :: b :: es2)
    = HeadTanstackRouterAdapter.transform (es1 ++ b :: a :: es2).
Proof.
  intros es1 es2 a b Hne. apply grouping_result_ext. intros ty.
  rewrite !TanstackFacts.bucket_transform. f_equal.
  rewrite !TanstackFacts.of_kind_app. f_equal.
  rewrite !TanstackFacts.of_kind_cons.
  destruct (decide (type a = ty)), (decide (type b = ty)); congruence.
Qed.

Lemma grouping_ignores_cross_kind_order_witness :
  let s := mkHeadElement Script {[ "src" := VStr "/analytics.js" ]} in
  let l := mkHeadElement Link {[ "rel" := VStr "canonical" ]} in
  HeadTanstackRouterAdapter.transform ([l] ++ s :: l :: [s])
  = HeadTanstackRouterAdapter.transform ([l] ++ l :: s :: [s]).
Proof.
  intros s l.
  apply (grouping_ignores_cross_kind_order [l] [s] s l).
  discriminate.
Defined.

(** X7. Nothing is invented and nothing is lost: an attribute object is
    in the bucket of a kind exactly when some input element of that kind
    carries it. *)
Theorem grouping_bucket_membership :
  ∀ (es : list HeadElement) (ty : ElementType) (attrs : Attributes),
    (∃ l, HeadTanstackRouterAdapter.bucket ty
            (HeadTanstackRouterAdapter.transform es) = Some l
          ∧ attrs ∈ l)
    ↔ ∃ e, e ∈ es ∧ type e = ty ∧ attributes e = attrs.
Proof.
  intros es ty attrs. rewrite TanstackFacts.bucket_transform.
  unfold HeadTanstackRouterAdapter.of_kind. split.
  - intros (l & Hl & Hin). injection Hl as <-.
    apply list_elem_of_fmap in Hin as (e & -> & He).
    apply list_elem_of_filter in He as [Hty He]. by exists e.
  - intros (e & He & Hty & <-). eexists. split; [done|].
    apply list_elem_of_fmap. exists e. split; [done|].
    by apply list_elem_of_filter.
Qed.

Lemma grouping_bucket_membership_witness :
  let attrs : Attributes := {[ "rel" := VStr "canonical" ]} in
  let es := [mkHeadElement Meta {[ "charSet" := VStr "utf-8" ]};
             mkHeadElement Link attrs] in
  ∃ l, HeadTanstackRouterAdapter.bucket Link
         (HeadTanstackRouterAdapter.transform es) = Some l
       ∧ attrs ∈ l.
Proof.
  intros attrs es.
  apply (proj2 (grouping_bucket_membership es Link attrs)).
  exists (mkHeadElement Link attrs). split_and!; [|reflexivity..].
  right. left.
Defined.

(** ** The React adapter *)

(** A name outside the reserved ones reaches the props untouched. *)
Lemma node_at_props_lookup i e name :
  name ∉ HeadReactAdapter.RESERVED_PROPS →
  HeadReactAdapter.el_props (HeadReactAdapter.node_at i e) !! name
  = attributes e !! name.
Proof.
  intros Hfree. rewrite ReactFacts.node_at_props, map_lookup_filter.
  destruct (attributes e !! name) as [v|]; simpl; [|done].
  by rewrite option_guard_True.
Qed.

Lemma type_name_inj ty ty' : type_name ty = type_name ty' → ty = ty'.
Proof. by destruct ty, ty'. Qed.

(** X8. Appending declarations leaves the nodes made so far as they
    are, keys included: the output for [es ++ es'] is the output for
    [es] followed by the nodes of [es'] numbered from [length es] on. *)
Theorem react_nodes_stable_under_append :
  ∀ (es es' : list HeadElement),
    HeadReactAdapter.adapter (es ++ es')
    = HeadReactAdapter.adapter es
      ++ imap (λ i e, HeadReactAdapter.node_at (length es + i) e) es'
    ∧ HeadReactAdapter.adapter es
      `prefix_of` HeadReactAdapter.adapter (es ++ es').
Proof.
  intros es es'.
  assert (HeadReactAdapter.adapter (es ++ es')
          = HeadReactAdapter.adapter es
            ++ imap (λ i e, HeadReactAdapter.node_at (length es + i) e) es')
    as Happ.
  { unfold HeadReactAdapter.adapter. by rewrite imap_app. }
  split; [done|]. rewrite Happ. by apply prefix_app_r.
Qed.

(** X9. The generated keys follow the position, not the element: when
    one declaration is put in front, an element without a [key] entry
    of its own moves from key ["head-k-i"] to ["head-k-(i+1)"], a
    different key, while its props stay the same. *)
Theorem react_keys_shift_on_prepend :
  ∀ (e0 : HeadElement) (es : list HeadElement) (i : nat) (e : HeadElement),
    es !! i = Some e →
    attributes e !! "key" = None →
    ∃ n n',
      HeadReactAdapter.adapter es !! i = Some n
      ∧ HeadReactAdapter.adapter (e0 :: es) !! S i = Some n'
      ∧ HeadReactAdapter.el_key n
        = Some (HeadReactAdapter.head_key (type e) i)
      ∧ HeadReactAdapter.el_key n'
        = Some (HeadReactAdapter.head_key (type e) (S i))
      ∧ HeadReactAdapter.el_key n ≠ HeadReactAdapter.el_key n'
      ∧ HeadReactAdapter.el_props n = HeadReactAdapter.el_props n'.
Proof.
  intros e0 es i e Hi Hkey.
  exists (HeadReactAdapter.node_at i e), (HeadReactAdapter.node_at (S i) e).
  rewrite !ReactFacts.adapter_lookup.
  change ((e0 :: es) !! S i) with (es !! i). rewrite Hi.
  rewrite !(ReactFacts.node_at_key_default _ _ Hkey).
  rewrite !ReactFacts.node_at_props.
  split_and!; try done.
  intros Heq. apply (inj Some) in Heq.
  apply ReactFacts.head_key_inj in Heq as [_ Heq]. lia.
Qed.

Lemma react_keys_shift_on_prepend_witness :
  let e0 := mkHeadElement Meta {[ "charSet" := VStr "utf-8" ]} in
  let e := mkHeadElement Link {[ "rel" := VStr "canonical" ]} in
  ∃ n n',
    HeadReactAdapter.adapter [e] !! 0 = Some n
    ∧ HeadReactAdapter.adapter [e0; e] !! 1 = Some n'
    ∧ HeadReactAdapter.el_key n = Some "head-link-0"
    ∧ HeadReactAdapter.el_key n' = Some "head-link-1"
    ∧ HeadReactAdapter.el_key n ≠ HeadReactAdapter.el_key n'
    ∧ HeadReactAdapter.el_props n = HeadReactAdapter.el_props n'.
Proof.
  intros e0 e.
  apply (react_keys_shift_on_prepend e0 [e] 0 e); reflexivity.
Defined.



(** The nodes of one element type, whatever index the numbering starts
    at, carry the props of the elements of that kind, in order. *)
Lemma react_nodes_of_kind ty es k :
  HeadReactAdapter.el_props
    <$> filter (λ n, HeadReactAdapter.el_type n = type_name ty)
          (imap (λ i e, HeadReactAdapter.node_at (k + i) e) es)
  = filter (λ kv : string * value, kv.1 ∉ HeadReactAdapter.RESERVED_PROPS)
      <$> HeadTanstackRouterAdapter.of_kind ty es.
Proof.
  revert k. induction es as [|e es IH]; intros k; [done|].
  rewrite imap_cons, filter_cons, TanstackFacts.of_kind_cons.
  rewrite (imap_ext _ (λ i e, HeadReactAdapter.node_at (S k + i) e))
    by (intros i x _; simpl; f_equal; lia).
  change (HeadReactAdapter.el_type (HeadReactAdapter.node_at (k + 0) e))
    with (type_name (type e)).
  destruct (decide (type_name (type e) = type_name ty)) as [Heq|Hne].
  - apply type_name_inj in Heq.
    destruct (decide (type e = ty)); [|done].
    rewrite !fmap_cons, IH. f_equal. apply ReactFacts.node_at_props.
  - destruct (decide (type e = ty)) as [<-|_]; [done|]. apply IH.
Qed.

(** X11. The two adapters show the same attribute objects: for every
    kind, the props of the React nodes of that element type, in output
    order, are the objects of the TanStack bucket of that kind, in
    order, each without its entries under the reserved names. *)
Theorem adapters_agree_by_kind :
  ∀ (es : list HeadElement) (ty : ElementType),
    ∃ l,
      HeadTanstackRouterAdapter.bucket ty
        (HeadTanstackRouterAdapter.transform es) = Some l
      ∧ HeadReactAdapter.el_props
          <$> filter (λ n, HeadReactAdapter.el_type n = type_name ty)
                (HeadReactAdapter.adapter es)
        = filter (λ kv : string * value,
                    kv.1 ∉ HeadReactAdapter.RESERVED_PROPS) <$> l.
Proof.
  intros es ty. exists (HeadTanstackRouterAdapter.of_kind ty es).
  split; [apply TanstackFacts.bucket_transform|].
  apply (react_nodes_of_kind ty es 0).
Qed.

(** X12. The inline body survives the React adapter: [getChildren] of a
    node's props is [getChildren] of the attributes the node was made
    from. *)
Theorem react_nodes_keep_children :
  ∀ (es : list HeadElement) (i : nat) (e : HeadElement),
    es !! i = Some e →
    ∃ n,
      HeadReactAdapter.adapter es !! i = Some n
      ∧ getChildren (HeadReactAdapter.el_props n)
        = getChildren (attributes e).
Proof.
  intros es i e Hi. exists (HeadReactAdapter.node_at i e).
  rewrite ReactFacts.adapter_lookup, Hi. split; [done|].
  unfold getChildren. rewrite node_at_props_lookup; [done|].
  intros Hin.
  repeat (apply elem_of_cons in Hin as [Hin|Hin]; [discriminate|]).
  by apply elem_of_nil in Hin.
Qed.

Lemma react_nodes_keep_children_witness :
  let e := mkHeadElement Style
             {[ "key" := VStr "s"; "children" := VStr ".hero{}" ]} in
  ∃ n, HeadReactAdapter.adapter [e] !! 0 = Some n
       ∧ getChildren (HeadReactAdapter.el_props n) = getChildren (attributes e).
Proof.
  intros e. apply (react_nodes_keep_children [e] 0 e). reflexivity.
Defined.

(** ** getChildren and updates of the attribute object *)

(** X13. [getChildren] depends on the [children] entry alone: after
    [children] is set to [v] it has the outcome of [String(v)]
    (the string itself when [v] is a string), after [children] is
    removed it returns the empty string, and setting or removing any
    other property does not change what it returns. *)
Theorem getChildren_reads_children_only :
  ∀ (attrs : Attributes) (name : string) (v : value) (s : string),
    getChildren (<["children" := v]> attrs) = js_String v
    ∧ getChildren (<["children" := VStr s]> attrs) = Normal s
    ∧ getChildren (delete "children" attrs) = Normal ""
    ∧ (name ≠ "children" →
       getChildren (<[name := v]> attrs) = getChildren attrs
       ∧ getChildren (delete name attrs) = getChildren attrs).
Proof.
  intros attrs name v s. unfold getChildren. split_and!.
  - by rewrite lookup_insert_eq.
  - by rewrite lookup_insert_eq.
  - by rewrite lookup_delete_eq.
  - intros Hne. by rewrite lookup_insert_ne, lookup_delete_ne.
Qed.

Lemma getChildren_reads_children_only_witness :
  let attrs : Attributes := {[ "children" := VStr "console.log(1)" ]} in
  getChildren (<["async" := VBool true]> attrs) = getChildren attrs
  ∧ getChildren (delete "async" attrs) = getChildren attrs.
Proof.
  intros attrs.
  apply (proj2 (proj2 (proj2
           (getChildren_reads_children_only attrs "async" (VBool true) "")))).
  discriminate.
Defined.
